(** * electron-titlebar-windows: the [TitleBar] widget of lib/titlebar.js

    A shallow embedding of the class [TitleBar] and of the part of the
    browser environment its methods read and write, followed by the
    properties of the widget's state machine.

    Modelling conventions.
    - A JavaScript value is [value]: undefined, null, a boolean or a string
      (the kinds the documented options take; numbers and objects are left
      out).
    - The rendered view is the record [element]: one slot for each node
      property a method of the class assigns.  A slot holds the string the
      setter was given; what the rendering engine then does with it is not
      part of the model.  The markup of html/titlebar.html is a variable of
      the development and is assumed to contain every node the class looks
      up with querySelector.
    - [EventEmitter.emit] is a log: a method call yields the list of event
      names it emitted, in order.  Subscribers are host code and are assumed
      not to call back into the widget while an event is delivered.
    - A method is a function from the receiver and the window to an
      [outcome]: a completion (normal or thrown), the emitted events and the
      state reached.  A throw keeps the writes made before it. *)

From stdpp Require Import gmap strings list.

Open Scope string_scope.
Open Scope list_scope.

(** ** JavaScript values *)

Inductive value : Type :=
  | VUndefined
  | VNull
  | VBool (b : bool)
  | VString (s : string).

#[global] Instance value_eq_dec : EqDecision value.
Proof. solve_decision. Defined.

(** ToBoolean. *)
Definition truthy (v : value) : bool :=
  match v with
  | VUndefined | VNull => false
  | VBool b => b
  | VString EmptyString => false
  | VString _ => true
  end.

(** [a !== b] on primitives. *)
Definition strict_neq (a b : value) : bool := negb (bool_decide (a = b)).

(** ToString, as applied by [+] with a string operand. *)
Definition to_string (v : value) : string :=
  match v with
  | VUndefined => "undefined"
  | VNull => "null"
  | VBool true => "true"
  | VBool false => "false"
  | VString s => s
  end.

(** Conversion to a DOMString attribute declared LegacyNullToEmptyString
    (innerText and the properties of a style declaration). *)
Definition to_dom_string (v : value) : string :=
  match v with
  | VNull => ""
  | _ => to_string v
  end.

(** ** The DOM the widget touches *)

(** DOMTokenList.add and DOMTokenList.remove. *)
Definition token_add (t : string) (l : list string) : list string :=
  if bool_decide (t ∈ l) then l else l ++ [t].

Definition token_remove (t : string) (l : list string) : list string :=
  filter (λ x, x ≠ t) l.

(** The markup of the view: the class attribute of the root and the initial
    value of every slot. *)
Record markup : Type := Markup {
  m_classList : list string;
  m_backgroundColor : string;
  m_title_innerText : string;
  m_title_color : string;
  m_icon_backgroundImage : string;
  m_rect_fill : string;
  m_path_fill : string;
  m_polygon_fill : string
}.

(** The rendered root node with the properties reached from it:
    [classList] and [backgroundColor] are the root's own, the others belong
    to the first descendant matching '.titlebar-title', '.titlebar-icon',
    'rect', 'path' and 'polygon'. *)
Record element : Type := Element {
  node : nat;
  classList : list string;
  backgroundColor : string;
  title_innerText : string;
  title_color : string;
  icon_backgroundImage : string;
  rect_fill : string;
  path_fill : string;
  polygon_fill : string
}.

#[global] Instance element_eq_dec : EqDecision element.
Proof. solve_decision. Defined.

(** Elements of the host page that can receive the view. *)
Inductive container : Type :=
  | Body
  | Host (n : nat).

#[global] Instance container_eq_dec : EqDecision container.
Proof. solve_decision. Defined.

#[global] Instance container_countable : Countable container.
Proof.
  apply (inj_countable'
           (λ c, match c with Body => None | Host n => Some n end)
           (λ o, match o with None => Body | Some n => Host n end)).
  by intros [].
Defined.

(** The global object.  [parent] is the global of that name: [None] is the
    browser's own value, a Window, which is not a node and has no
    removeChild method; [Some c] is a page that has replaced it with the
    element [c]. *)
Record window : Type := Window {
  parent : option container;
  body_classList : list string;
  styles : list (string * string);
  childNodes : gmap container (list nat);
  next_node : nat
}.

Definition children (c : container) (w : window) : list nat :=
  default [] (childNodes w !! c).

(** Node.appendChild: the node leaves the parent it has, if any, and
    becomes the last child of [c]. *)
Definition appendChild (c : container) (n : nat)
    (m : gmap container (list nat)) : gmap container (list nat) :=
  let m' := filter (λ x, x ≠ n) <$> m in
  <[c := default [] (m' !! c) ++ [n]]> m'.

(** Node.removeChild, once [n] is known to be a child of [c]. *)
Definition removeChild (c : container) (n : nat)
    (m : gmap container (list nat)) : gmap container (list nat) :=
  <[c := filter (λ x, x ≠ n) (default [] (m !! c))]> m.

(** Modelled from the spec: defaultcss, the style injector required on line
    17, is a package outside lib/.  It applies a stylesheet once per logical
    name: injecting under a name that is already registered does nothing. *)
Definition defaultCss (name css : string) (w : window) : window :=
  if bool_decide (name ∈ (styles w).*1) then w
  else Window (parent w) (body_classList w) (styles w ++ [(name, css)])
              (childNodes w) (next_node w).

(** ** The widget *)

(** The argument of the constructor. *)
Record config : Type := Config {
  c_icon : value;
  c_title : value;
  c_color : value;
  c_backgroundColor : value;
  c_darkMode : value;
  c_draggable : value;
  c_fullscreen : value
}.

(** The object literal [{}]. *)
Definition empty_config : config :=
  Config VUndefined VUndefined VUndefined VUndefined VUndefined VUndefined
         VUndefined.

(** [this.options]; [maximized] is the property [resize] stores. *)
Record options : Type := Options {
  icon : value;
  title : value;
  color : value;
  backgroundColor_opt : value;
  darkMode : value;
  draggable : value;
  fullscreen : value;
  maximized : value
}.

#[global] Instance options_eq_dec : EqDecision options.
Proof. solve_decision. Defined.

Inductive target : Type := Root | MinimizeButton | ResizeButton | CloseButton.

#[global] Instance target_eq_dec : EqDecision target.
Proof. solve_decision. Defined.

Inductive method : Type := MResize | MMinimize | MClose.

Record TitleBar : Type := MkTitleBar {
  this_options : options;
  titlebarElement : element;
  listeners : list (target * string * method)
}.

Record state : Type := State {
  this : TitleBar;
  win : window
}.

(** ** Method bodies as state transformers *)

Inductive error : Type :=
  | TypeError (msg : string)
  | NotFoundError.

Inductive completion (A : Type) : Type :=
  | Normal (a : A)
  | Throw (e : error).
Arguments Normal {A} a.
Arguments Throw {A} e.

Record outcome (A : Type) : Type := Outcome {
  result : completion A;
  emitted : list string;
  final : state
}.
Arguments Outcome {A} _ _ _.
Arguments result {A} _.
Arguments emitted {A} _.
Arguments final {A} _.

Definition M (A : Type) : Type := state → outcome A.

Definition ret {A} (a : A) : M A := λ s, Outcome (Normal a) [] s.

Definition bind {A B} (m : M A) (k : A → M B) : M B := λ s,
  match m s with
  | Outcome (Normal a) ev s' =>
      match k a s' with
      | Outcome r ev' s'' => Outcome r (ev ++ ev') s''
      end
  | Outcome (Throw e) ev s' => Outcome (Throw e) ev s'
  end.

Definition throw {A} (e : error) : M A := λ s, Outcome (Throw e) [] s.

#[global] Instance M_ret : MRet M := @ret.
#[global] Instance M_bind : MBind M := λ A B k m, bind m k.

Definition get : M state := λ s, Outcome (Normal s) [] s.
Definition put (s : state) : M unit := λ _, Outcome (Normal tt) [] s.
Definition modify (f : state → state) : M unit := λ s, Outcome (Normal tt) [] (f s).

(** [if (b) { m }]. *)
Definition when (b : bool) (m : M unit) : M unit := if b then m else ret tt.

(** EventEmitter.emit. *)
Definition emit (name : string) : M unit := λ s, Outcome (Normal tt) [name] s.

(** *** Field updates *)

Definition with_element (f : element → element) (s : state) : state :=
  State (MkTitleBar (this_options (this s)) (f (titlebarElement (this s)))
                    (listeners (this s)))
        (win s).

Definition with_options (f : options → options) (s : state) : state :=
  State (MkTitleBar (f (this_options (this s))) (titlebarElement (this s))
                    (listeners (this s)))
        (win s).

Definition with_window (f : window → window) (s : state) : state :=
  State (this s) (f (win s)).

Definition with_listener (l : target * string * method) (s : state) : state :=
  State (MkTitleBar (this_options (this s)) (titlebarElement (this s))
                    (listeners (this s) ++ [l]))
        (win s).

Definition set_classList (f : list string → list string) (e : element) : element :=
  Element (node e) (f (classList e)) (backgroundColor e) (title_innerText e)
          (title_color e) (icon_backgroundImage e) (rect_fill e) (path_fill e)
          (polygon_fill e).

Definition set_backgroundColor (v : string) (e : element) : element :=
  Element (node e) (classList e) v (title_innerText e)
          (title_color e) (icon_backgroundImage e) (rect_fill e) (path_fill e)
          (polygon_fill e).

Definition set_title_innerText (v : string) (e : element) : element :=
  Element (node e) (classList e) (backgroundColor e) v
          (title_color e) (icon_backgroundImage e) (rect_fill e) (path_fill e)
          (polygon_fill e).

Definition set_title_color (v : string) (e : element) : element :=
  Element (node e) (classList e) (backgroundColor e) (title_innerText e)
          v (icon_backgroundImage e) (rect_fill e) (path_fill e)
          (polygon_fill e).

Definition set_icon_backgroundImage (v : string) (e : element) : element :=
  Element (node e) (classList e) (backgroundColor e) (title_innerText e)
          (title_color e) v (rect_fill e) (path_fill e)
          (polygon_fill e).

Definition set_rect_fill (v : string) (e : element) : element :=
  Element (node e) (classList e) (backgroundColor e) (title_innerText e)
          (title_color e) (icon_backgroundImage e) v (path_fill e)
          (polygon_fill e).

Definition set_path_fill (v : string) (e : element) : element :=
  Element (node e) (classList e) (backgroundColor e) (title_innerText e)
          (title_color e) (icon_backgroundImage e) (rect_fill e) v
          (polygon_fill e).

Definition set_polygon_fill (v : string) (e : element) : element :=
  Element (node e) (classList e) (backgroundColor e) (title_innerText e)
          (title_color e) (icon_backgroundImage e) (rect_fill e) (path_fill e)
          v.

Definition set_maximized (v : value) (o : options) : options :=
  Options (icon o) (title o) (color o) (backgroundColor_opt o) (darkMode o)
          (draggable o) (fullscreen o) v.

Definition set_fullscreen (v : value) (o : options) : options :=
  Options (icon o) (title o) (color o) (backgroundColor_opt o) (darkMode o)
          (draggable o) v (maximized o).

Definition set_body_classList (f : list string → list string) (w : window) : window :=
  Window (parent w) (f (body_classList w)) (styles w) (childNodes w)
         (next_node w).

Definition set_childNodes
    (f : gmap container (list nat) → gmap container (list nat))
    (w : window) : window :=
  Window (parent w) (body_classList w) (styles w) (f (childNodes w))
         (next_node w).

(** A read of [this.options]. *)
Definition opt (f : options → value) : M value :=
  s ← get; mret (f (this_options (this s))).

(** ** The class *)

Section TitleBar.

(** The two assets read on lines 25 and 26. *)
Variable titlebarStylesheet : string.
Variable titlebarView : markup.

(** domify: a new node of the document, rendered from the markup. *)
Definition domify (m : markup) (w : window) : element * window :=
  (Element (next_node w) (m_classList m) (m_backgroundColor m)
           (m_title_innerText m) (m_title_color m)
           (m_icon_backgroundImage m) (m_rect_fill m) (m_path_fill m)
           (m_polygon_fill m),
   Window (parent w) (body_classList w) (styles w) (childNodes w)
          (S (next_node w))).

Definition setIcon (icon : value) : M unit :=
  modify (with_element
            (set_icon_backgroundImage ("url(" +:+ to_string icon +:+ ")"))).

Definition setTitle (title : value) : M unit :=
  modify (with_element (set_title_innerText (to_dom_string title))).

Definition close : M unit := emit "close".

Definition minimize : M unit := emit "minimize".

Definition maximize : M unit :=
  modify (with_element (set_classList (token_add "maximized")));;
  emit "maximize".

Definition restore : M unit :=
  modify (with_element (set_classList (token_remove "maximized")));;
  emit "restore".

Definition resize : M unit :=
  m ← opt maximized;
  when (truthy m) restore;;
  m ← opt maximized;
  when (negb (truthy m)) maximize;;
  m ← opt maximized;
  modify (with_options (set_maximized (VBool (negb (truthy m))))).

Definition init : M unit :=
  d ← opt draggable;
  when (truthy d)
    (modify (with_element (set_classList (token_add "draggable"))));;
  i ← opt icon;
  when (truthy i) (setIcon i);;
  t ← opt title;
  when (truthy t) (setTitle t);;
  modify (with_listener (Root, "dblclick", MResize));;
  modify (with_listener (MinimizeButton, "click", MMinimize));;
  modify (with_listener (ResizeButton, "click", MResize));;
  modify (with_listener (CloseButton, "click", MClose)).

(** [new TitleBar(options)]; [None] is a call without argument.  The
    widget is the receiver of the state reached. *)
Definition constructor (options : option config) (w : window) : outcome unit :=
  let o := default empty_config options in
  let el := domify titlebarView w in
  init (State (MkTitleBar
                 (Options (c_icon o) (c_title o) (c_color o)
                          (c_backgroundColor o) (c_darkMode o)
                          (c_draggable o) (c_fullscreen o) VUndefined)
                 el.1 [])
              el.2).

(** [onDoubleclick(event)]; [t] is the control that contains
    [event.target], or [Root] when none of the three does. *)
Definition onDoubleclick (t : target) : M unit :=
  when (negb (bool_decide (t = MinimizeButton)
              || bool_decide (t = ResizeButton)
              || bool_decide (t = CloseButton)))
       resize.

(** [appendTo(context)]; [None] is a call without argument.  The method
    returns its receiver. *)
Definition appendTo (context : option container) : M unit :=
  let context := default Body context in
  d ← opt darkMode;
  when (strict_neq d (VBool false))
    (modify (with_window (set_body_classList (token_add "titlebar-light"))));;
  c ← opt color;
  when (truthy c)
    (modify (with_element (set_title_color (to_dom_string c)));;
     modify (with_element (set_rect_fill (to_dom_string c)));;
     modify (with_element (set_path_fill (to_dom_string c)));;
     modify (with_element (set_polygon_fill (to_dom_string c))));;
  b ← opt backgroundColor_opt;
  when (truthy b)
    (modify (with_element (set_backgroundColor (to_dom_string b))));;
  modify (with_window (defaultCss "titlebar" titlebarStylesheet));;
  s ← get;
  modify (with_window
            (set_childNodes
               (appendChild context (node (titlebarElement (this s)))))).

(** [destroy()]: [parent] is not bound in the method, the class or the
    module, so it is the global. *)
Definition destroy : M unit :=
  s ← get;
  match parent (win s) with
  | None => throw (TypeError "parent.removeChild is not a function")
  | Some c =>
      let n := node (titlebarElement (this s)) in
      if bool_decide (n ∈ children c (win s))
      then modify (with_window (set_childNodes (removeChild c n)))
      else throw NotFoundError
  end.

(** The listeners registered by [init]. *)
Definition handler (m : method) : M unit :=
  match m with
  | MResize => resize
  | MMinimize => minimize
  | MClose => close
  end.

(** An event of type [type] fired on [t]: the listeners registered on [t]
    for that type run in the order of registration, then, as the event
    bubbles, those registered on the root. *)
Definition listeners_on (t : target) (type : string) (s : state) : list method :=
  (filter (λ l, l.1 = (t, type)) (listeners (this s))).*2.

Definition dispatch (t : target) (type : string) : M unit := λ s,
  let on_target := listeners_on t type s in
  let on_root := if decide (t = Root) then [] else listeners_on Root type s in
  foldr (λ m k, handler m ;; k) (mret tt) (on_target ++ on_root) s.

(** *** Calls from the host *)

Inductive call : Type :=
  | Minimize
  | Maximize
  | Restore
  | Resize
  | Close
  | AppendTo (context : option container)
  | Destroy
  | SetIcon (icon : value)
  | SetTitle (title : value).

Definition invoke (c : call) : M unit :=
  match c with
  | Minimize => minimize
  | Maximize => maximize
  | Restore => restore
  | Resize => resize
  | Close => close
  | AppendTo context => appendTo context
  | Destroy => destroy
  | SetIcon icon => setIcon icon
  | SetTitle title => setTitle title
  end.

(** A host that makes the calls one after the other, going on after a
    call that throws: what each call did, and the state at the end. *)
Fixpoint run (cs : list call) (s : state)
    : list (completion unit * list string) * state :=
  match cs with
  | [] => ([], s)
  | c :: cs' =>
      let o := invoke c s in
      let r := run cs' (final o) in
      ((result o, emitted o) :: r.1, r.2)
  end.

(** The state a new widget is in. *)
Definition fresh (options : option config) (w : window) : state :=
  final (constructor options w).

End TitleBar.

(** A page before any widget is made. *)
Definition blank_window : window := Window None [] [] ∅ 0.

(** A markup with the root class alone. *)
Definition plain_markup : markup :=
  Markup ["titlebar"] "" "" "" "" "" "" "".

(** * Properties *)

(** ** What each method does to a state *)

(** Unfolds the monad operations in the goal. *)
Ltac msimpl :=
  cbv [mbind mret M_bind M_ret bind ret get put modify throw emit opt when];
  cbn [result emitted final app].

(** Runs a method body on a state whose components are variables: the
    conditions it meets are decided one after the other, by a case
    distinction the first time and by the case chosen afterwards. *)
Ltac mstep :=
  match goal with
  | E : truthy ?v = _ |- context [truthy ?v] => rewrite E
  | E : strict_neq ?a ?b = _ |- context [strict_neq ?a ?b] => rewrite E
  | |- context [truthy (?f ?o)] => is_var o; destruct (truthy (f o)) eqn:?
  | |- context [strict_neq (?f ?o) ?b] =>
      is_var o; destruct (strict_neq (f o) b) eqn:?
  end.

Ltac mrun := msimpl; cbn; repeat (mstep; cbn).

Lemma close_eq (s : state) : close s = Outcome (Normal tt) ["close"] s.
Proof. reflexivity. Qed.

Lemma minimize_eq (s : state) : minimize s = Outcome (Normal tt) ["minimize"] s.
Proof. reflexivity. Qed.

Lemma maximize_eq (s : state) :
  maximize s =
  Outcome (Normal tt) ["maximize"]
          (with_element (set_classList (token_add "maximized")) s).
Proof. reflexivity. Qed.

Lemma restore_eq (s : state) :
  restore s =
  Outcome (Normal tt) ["restore"]
          (with_element (set_classList (token_remove "maximized")) s).
Proof. reflexivity. Qed.

(** The flag and the marker of a state. *)
Definition flag (s : state) : value := maximized (this_options (this s)).

Definition marked (s : state) : Prop :=
  "maximized" ∈ classList (titlebarElement (this s)).

Lemma resize_eq (s : state) :
  resize s =
  if truthy (flag s)
  then Outcome (Normal tt) ["restore"]
         (with_options (set_maximized (VBool false))
            (with_element (set_classList (token_remove "maximized")) s))
  else Outcome (Normal tt) ["maximize"]
         (with_options (set_maximized (VBool true))
            (with_element (set_classList (token_add "maximized")) s)).
Proof.
  destruct s as [[o e l] w]. unfold flag, resize, restore, maximize.
  mrun; reflexivity.
Qed.

Lemma token_add_elem (t : string) (l : list string) : t ∈ token_add t l.
Proof.
  unfold token_add. case_bool_decide; [done|].
  apply elem_of_app. right. by apply list_elem_of_singleton.
Qed.

Lemma token_remove_elem (t : string) (l : list string) : t ∉ token_remove t l.
Proof.
  unfold token_remove. intros H. apply list_elem_of_filter in H. by destruct H.
Qed.

Lemma token_add_other (t u : string) (l : list string) :
  u ≠ t → u ∈ token_add t l ↔ u ∈ l.
Proof.
  intros Hne. unfold token_add. case_bool_decide; [done|].
  rewrite elem_of_app, list_elem_of_singleton.
  split; [intros [?|?]; [done|congruence] | auto].
Qed.

(** ** Notifications *)

(** C7: [minimize()] and [close()] each complete normally, emit the one
    event of their name and leave the whole state, widget and window, as it
    was; in particular the flag and the class list of the root are those of
    before. *)
Theorem minimize_close_notify_only (s : state) :
  (minimize s = Outcome (Normal tt) ["minimize"] s
   ∧ flag (final (minimize s)) = flag s
   ∧ classList (titlebarElement (this (final (minimize s))))
     = classList (titlebarElement (this s)))
  ∧ (close s = Outcome (Normal tt) ["close"] s
     ∧ flag (final (close s)) = flag s
     ∧ classList (titlebarElement (this (final (close s))))
       = classList (titlebarElement (this s))).
Proof. rewrite minimize_eq, close_eq. repeat split. Qed.

(** ** The raw setters and the toggle *)

Lemma flag_with_element (f : element → element) (s : state) :
  flag (with_element f s) = flag s.
Proof. reflexivity. Qed.

Lemma flag_with_window (f : window → window) (s : state) :
  flag (with_window f s) = flag s.
Proof. reflexivity. Qed.

Lemma setIcon_eq (icon : value) (s : state) :
  setIcon icon s =
  Outcome (Normal tt) []
    (with_element
       (set_icon_backgroundImage ("url(" +:+ to_string icon +:+ ")")) s).
Proof. reflexivity. Qed.

Lemma setTitle_eq (title : value) (s : state) :
  setTitle title s =
  Outcome (Normal tt) []
    (with_element (set_title_innerText (to_dom_string title)) s).
Proof. reflexivity. Qed.

(** [appendTo] writes the window and the view, never [this.options]. *)
Lemma appendTo_options (css : string) (context : option container) (s : state) :
  this_options (this (final (appendTo css context s))) = this_options (this s).
Proof.
  destruct s as [[o e l] w]. unfold appendTo. mrun; reflexivity.
Qed.

Lemma appendTo_classList (css : string) (context : option container) (s : state) :
  classList (titlebarElement (this (final (appendTo css context s))))
  = classList (titlebarElement (this s)).
Proof.
  destruct s as [[o e l] w]. unfold appendTo. mrun; reflexivity.
Qed.

(** [destroy] writes the window only. *)
Lemma destroy_this (s : state) : this (final (destroy s)) = this s.
Proof.
  destruct s as [t w]. unfold destroy. msimpl. cbn.
  destruct (parent w) as [c|]; [|reflexivity].
  case_bool_decide; reflexivity.
Qed.

(** The flag after a call: [resize] stores the negation of what it read, no
    other method writes it. *)
Lemma flag_invoke (css : string) (c : call) (s : state) :
  flag (final (invoke css c s)) =
  match c with
  | Resize => VBool (negb (truthy (flag s)))
  | _ => flag s
  end.
Proof.
  destruct c; cbn [invoke]; try reflexivity.
  - rewrite resize_eq. destruct (truthy (flag s)); reflexivity.
  - unfold flag. by rewrite appendTo_options.
  - unfold flag. by rewrite destroy_this.
Qed.

(** C3: in every state, [maximize()] puts the marker on the root and emits
    maximize, [restore()] takes the marker off and emits restore, whatever
    the flag is, and change nothing else; of all the methods [resize()]
    alone writes the flag, and it negates it. *)
Theorem maximize_restore_leave_flag (css : string) (s : state) :
  (maximize s =
     Outcome (Normal tt) ["maximize"]
             (with_element (set_classList (token_add "maximized")) s)
   ∧ marked (final (maximize s))
   ∧ flag (final (maximize s)) = flag s)
  ∧ (restore s =
       Outcome (Normal tt) ["restore"]
               (with_element (set_classList (token_remove "maximized")) s)
     ∧ ¬ marked (final (restore s))
     ∧ flag (final (restore s)) = flag s)
  ∧ (∀ c : call,
       flag (final (invoke css c s)) =
       match c with
       | Resize => VBool (negb (truthy (flag s)))
       | _ => flag s
       end).
Proof.
  split; [|split].
  - rewrite maximize_eq. repeat split. apply token_add_elem.
  - rewrite restore_eq. repeat split. apply token_remove_elem.
  - intros c. apply flag_invoke.
Qed.

(** ** The toggle, called repeatedly *)

(** What the [i]-th of a series of [resize()] calls emits when the flag was
    [b] before the series ([i] counted from 0). *)
Definition nth_resize (b : bool) (i : nat) : completion unit * list string :=
  (Normal tt, [if xorb b (Nat.odd i) then "restore" else "maximize"]).

Lemma constructor_flag (view : markup) (options : option config) (w : window) :
  flag (fresh view options w) = VUndefined.
Proof.
  destruct options as [o|]; unfold fresh, constructor, init, setIcon, setTitle;
    mrun; reflexivity.
Qed.

Lemma run_resize (css : string) (n : nat) (s : state) :
  (run css (replicate n Resize) s).1
    = nth_resize (truthy (flag s)) <$> seq 0 n
  ∧ truthy (flag (run css (replicate n Resize) s).2)
    = xorb (truthy (flag s)) (Nat.odd n).
Proof.
  revert s. induction n as [|n IH]; intros s.
  - cbn. by rewrite xorb_false_r.
  - cbn [replicate run fst snd invoke].
    destruct (IH (final (resize s))) as [IHlog IHflag].
    rewrite IHlog, IHflag. clear IH IHlog IHflag.
    rewrite resize_eq.
    rewrite Nat.odd_succ, <- Nat.negb_odd.
    cbn [seq fmap list_fmap]. rewrite <- fmap_S_seq, <- list_fmap_compose.
    destruct (truthy (flag s)) eqn:E; cbn [result emitted final].
    + split.
      * f_equal. apply list_fmap_ext. intros _ i _. unfold nth_resize. cbn.
        rewrite Nat.odd_succ, <- Nat.negb_odd. by destruct (Nat.odd i).
      * cbn. by destruct (Nat.odd n).
    + split.
      * f_equal. apply list_fmap_ext. intros _ i _. unfold nth_resize. cbn.
        rewrite Nat.odd_succ, <- Nat.negb_odd. by destruct (Nat.odd i).
      * cbn. by destruct (Nat.odd n).
Qed.

(** C1: on a widget just constructed, [n] calls of [resize()] and nothing
    else leave the flag truthy exactly when [n mod 2 = 1]; every call
    completes and emits one event, maximize for the calls of odd rank
    (the first, the third, ...) and restore for those of even rank. *)
Theorem resize_alternates
    (css : string) (view : markup) (options : option config) (w : window)
    (n : nat) :
  let r := run css (replicate n Resize) (fresh view options w) in
  (truthy (flag r.2) = true ↔ n mod 2 = 1)
  ∧ r.1 = (λ rank, (Normal tt, [if Nat.odd rank then "maximize" else "restore"]))
            <$> seq 1 n.
Proof.
  cbn zeta.
  destruct (run_resize css n (fresh view options w)) as [Hlog Hflag].
  rewrite Hlog, Hflag, constructor_flag. cbn [truthy xorb].
  split.
  - rewrite <- Nat.bit0_mod, Nat.bit0_odd.
    destruct (Nat.odd n); cbn; split; congruence.
  - rewrite <- fmap_S_seq, <- list_fmap_compose.
    apply list_fmap_ext. intros _ i _. unfold nth_resize. cbn.
    rewrite Nat.odd_succ, <- Nat.negb_odd. by destruct (Nat.odd i).
Qed.

(** ** Flag and marker *)

(** The flag and the marker agree. *)
Definition in_sync (s : state) : Prop := truthy (flag s) = true ↔ marked s.

(** The two methods that write the marker without the flag. *)
Definition raw_setter (c : call) : bool :=
  match c with
  | Maximize | Restore => true
  | _ => false
  end.

Lemma constructor_classList (view : markup) (options : option config) (w : window) :
  classList (titlebarElement (this (fresh view options w))) =
  if truthy (c_draggable (default empty_config options))
  then token_add "draggable" (m_classList view)
  else m_classList view.
Proof.
  destruct options as [o|]; unfold fresh, constructor, init, setIcon, setTitle;
    mrun; reflexivity.
Qed.

Lemma constructor_in_sync (view : markup) (options : option config) (w : window) :
  "maximized" ∉ m_classList view → in_sync (fresh view options w).
Proof.
  intros Hview. unfold in_sync, marked.
  rewrite constructor_flag, constructor_classList. cbn [truthy].
  split; [discriminate|]. intros Hin. exfalso. apply Hview.
  destruct (truthy _); [|done].
  by apply token_add_other in Hin.
Qed.

Lemma invoke_in_sync (css : string) (c : call) (s : state) :
  raw_setter c = false → in_sync s → in_sync (final (invoke css c s)).
Proof.
  unfold in_sync, marked. intros Hc Hs.
  destruct c; try discriminate Hc; cbn [invoke]; try exact Hs.
  - rewrite resize_eq. destruct (truthy (flag s)); cbn.
    + split; [discriminate|]. intros H. by apply token_remove_elem in H.
    + split; [|done]. intros _. apply token_add_elem.
  - unfold flag. by rewrite appendTo_options, appendTo_classList.
  - unfold flag. by rewrite destroy_this.
Qed.

Lemma run_in_sync (css : string) (cs : list call) (s : state) :
  Forall (λ c, raw_setter c = false) cs → in_sync s → in_sync (run css cs s).2.
Proof.
  intros Hcs. revert s. induction Hcs as [|c cs Hc _ IH]; intros s Hs.
  - exact Hs.
  - cbn [run snd]. apply IH. by apply invoke_in_sync.
Qed.

(** C2, as the code has it: when the root of the markup does not carry the
    marker, the flag is truthy exactly when the root carries the marker in
    every state reached from construction by calls of minimize, resize,
    close, appendTo, destroy, setIcon and setTitle, in any number and
    order. *)
Theorem in_sync_without_raw_setters
    (css : string) (view : markup) (options : option config) (w : window)
    (cs : list call) :
  "maximized" ∉ m_classList view →
  Forall (λ c, raw_setter c = false) cs →
  in_sync (run css cs (fresh view options w)).2.
Proof.
  intros Hview Hcs. apply run_in_sync; [done|]. by apply constructor_in_sync.
Qed.

Lemma in_sync_without_raw_setters_witness :
  in_sync (run "" [Resize; AppendTo None; Minimize; Destroy; Resize; Resize;
                   SetTitle (VString "t"); SetIcon (VString "i"); Close]
               (fresh plain_markup None blank_window)).2.
Proof.
  apply (in_sync_without_raw_setters "" plain_markup None blank_window).
  - cbn [plain_markup m_classList]. rewrite list_elem_of_singleton.
    discriminate.
  - repeat constructor.
Defined.

(** C2 fails as stated: a direct [maximize()] on a new widget puts the
    marker on the root and leaves the flag undefined, and a direct
    [restore()] after one [resize()] takes the marker off and leaves the
    flag true. *)
Lemma raw_setters_break_sync :
  ¬ in_sync (run "" [Maximize] (fresh plain_markup None blank_window)).2
  ∧ ¬ in_sync (run "" [Resize; Restore] (fresh plain_markup None blank_window)).2.
Proof.
  split.
  - intros [_ H]. cut (false = true); [discriminate|]. apply H.
    unfold marked. cbn. apply list_elem_of_further, list_elem_of_here.
  - intros [H _]. cut ("maximized" ∈ ["titlebar"]).
    + rewrite list_elem_of_singleton. discriminate.
    + by apply H.
Qed.

(** ** Unmounting *)

Lemma appendTo_window (css : string) (context : option container) (s : state) :
  win (final (appendTo css context s)) =
  set_childNodes
    (appendChild (default Body context) (node (titlebarElement (this s))))
    (defaultCss "titlebar" css
       (if strict_neq (darkMode (this_options (this s))) (VBool false)
        then set_body_classList (token_add "titlebar-light") (win s)
        else win s)).
Proof.
  destruct s as [[o e l] w]. unfold appendTo. mrun; reflexivity.
Qed.

Lemma appendTo_node (css : string) (context : option container) (s : state) :
  node (titlebarElement (this (final (appendTo css context s))))
  = node (titlebarElement (this s)).
Proof.
  destruct s as [[o e l] w]. unfold appendTo. mrun; reflexivity.
Qed.

Lemma defaultCss_frame (name css : string) (w : window) :
  parent (defaultCss name css w) = parent w
  ∧ childNodes (defaultCss name css w) = childNodes w
  ∧ body_classList (defaultCss name css w) = body_classList w.
Proof. unfold defaultCss. case_bool_decide; done. Qed.

Lemma appendTo_parent (css : string) (context : option container) (s : state) :
  parent (win (final (appendTo css context s))) = parent (win s).
Proof.
  rewrite appendTo_window. cbn.
  destruct (defaultCss_frame "titlebar" css
              (if strict_neq (darkMode (this_options (this s))) (VBool false)
               then set_body_classList (token_add "titlebar-light") (win s)
               else win s)) as [-> _].
  by destruct (strict_neq _ _).
Qed.

(** Children after [appendChild c n]: [n] is the last child of [c] and a
    child of no other container. *)
Lemma appendChild_lookup (c c' : container) (n : nat)
    (m : gmap container (list nat)) :
  default [] (appendChild c n m !! c') =
  if decide (c = c')
  then filter (λ x, x ≠ n) (default [] (m !! c)) ++ [n]
  else filter (λ x, x ≠ n) (default [] (m !! c')).
Proof.
  unfold appendChild. cbn zeta. rewrite lookup_insert.
  destruct (decide (c = c')) as [->|Hne].
  - cbn. rewrite lookup_fmap. by destruct (m !! c').
  - rewrite lookup_fmap. by destruct (m !! c').
Qed.

Lemma appendTo_children (css : string) (context : option container)
    (s : state) (c' : container) :
  children c' (win (final (appendTo css context s))) =
  let n := node (titlebarElement (this s)) in
  if decide (default Body context = c')
  then filter (λ x, x ≠ n) (children (default Body context) (win s)) ++ [n]
  else filter (λ x, x ≠ n) (children c' (win s)).
Proof.
  unfold children. rewrite appendTo_window. cbn [set_childNodes childNodes].
  rewrite appendChild_lookup.
  destruct (defaultCss_frame "titlebar" css
              (if strict_neq (darkMode (this_options (this s))) (VBool false)
               then set_body_classList (token_add "titlebar-light") (win s)
               else win s)) as (_ & -> & _).
  by destruct (strict_neq _ _).
Qed.

Lemma filter_ne_elem (n : nat) (l : list nat) : n ∉ filter (λ x, x ≠ n) l.
Proof. intros H. apply list_elem_of_filter in H. by destruct H. Qed.

(** What [destroy()] does after [appendTo(context)]: the view is a child of
    the container; it stops being one exactly when the global [parent] is
    that very container.  With the browser's own [parent] the call throws a
    TypeError and the state is the one before the call. *)
Lemma destroy_after_appendTo (css : string) (context : option container)
    (s : state) :
  let c := default Body context in
  let n := node (titlebarElement (this s)) in
  let s1 := final (appendTo css context s) in
  n ∈ children c (win s1)
  ∧ (n ∉ children c (win (final (destroy s1))) ↔ parent (win s) = Some c)
  ∧ (parent (win s) = None →
     destroy s1 =
     Outcome (Throw (TypeError "parent.removeChild is not a function")) [] s1).
Proof.
  cbn zeta.
  pose proof (appendTo_children css context s) as Hch.
  pose proof (appendTo_parent css context s) as Hpar.
  pose proof (appendTo_node css context s) as Hnode.
  set (s1 := final (appendTo css context s)) in *.
  set (c := default Body context) in *.
  set (n := node (titlebarElement (this s))) in *.
  assert (Hin : n ∈ children c (win s1)).
  { rewrite Hch. cbn zeta. rewrite decide_True by done.
    apply elem_of_app. right. by apply list_elem_of_singleton. }
  split; [exact Hin|]. split.
  - unfold destroy. msimpl. rewrite Hpar, Hnode.
    destruct (parent (win s)) as [c'|]; cbn.
    + destruct (decide (c = c')) as [<-|Hne].
      * rewrite bool_decide_eq_true_2 by exact Hin. cbn.
        split; [done|]. intros _. unfold children, removeChild. cbn.
        rewrite lookup_insert_eq. cbn. apply filter_ne_elem.
      * rewrite bool_decide_eq_false_2.
        -- cbn. split; [done|]. intros [= ->]. done.
        -- rewrite Hch. cbn zeta. rewrite decide_False by done.
           apply filter_ne_elem.
    + split; [done|discriminate].
  - intros Hnone. unfold destroy. msimpl. rewrite Hpar, Hnone. reflexivity.
Qed.

(** C4, on the code: a widget made on a blank page and mounted with
    [appendTo()] is a child of the body; [destroy()] then throws a
    TypeError, for the global [parent] is the window, and the view is still
    a child of the body. *)
Theorem destroy_throws_after_appendTo :
  let s := final (appendTo "" None (fresh plain_markup None blank_window)) in
  node (titlebarElement (this s)) ∈ children Body (win s)
  ∧ result (destroy s) = Throw (TypeError "parent.removeChild is not a function")
  ∧ node (titlebarElement (this s)) ∈ children Body (win (final (destroy s))).
Proof.
  cbn zeta.
  destruct (destroy_after_appendTo "" None (fresh plain_markup None blank_window))
    as (Hin & _ & Hthrow).
  cbn zeta in Hin, Hthrow. rewrite appendTo_node.
  split; [exact Hin|].
  rewrite Hthrow by reflexivity. cbn [result final]. split; [reflexivity|exact Hin].
Qed.

(** ** The fullscreen option *)

Definition with_fullscreen (v : value) (o : config) : config :=
  Config (c_icon o) (c_title o) (c_color o) (c_backgroundColor o)
         (c_darkMode o) (c_draggable o) v.

(** The same outcome, in another state. *)
Definition map_final {A} (f : state → state) (o : outcome A) : outcome A :=
  Outcome (result o) (emitted o) (f (final o)).

Lemma constructor_fullscreen
    (view : markup) (v : value) (o : config) (w : window) :
  constructor view (Some (with_fullscreen v o)) w
  = map_final (with_options (set_fullscreen v)) (constructor view (Some o) w).
Proof.
  destruct o as [i t co bg dm dr fs].
  unfold constructor, init, setIcon, setTitle. msimpl. cbn.
  destruct (truthy dr); cbn; destruct (truthy i); cbn; destruct (truthy t);
    reflexivity.
Qed.

(** No method reads [this.options.fullscreen]: a call made with another
    value in that field completes the same way, emits the same events and
    reaches the same state but for the field. *)
Lemma invoke_fullscreen (css : string) (c : call) (v : value) (s : state) :
  invoke css c (with_options (set_fullscreen v) s)
  = map_final (with_options (set_fullscreen v)) (invoke css c s).
Proof.
  destruct s as [[[i t co bg dm dr fs mx] e l] w].
  destruct c; cbn [invoke]; try reflexivity.
  - rewrite !resize_eq. unfold flag. cbn. destruct (truthy mx); reflexivity.
  - unfold appendTo. msimpl. cbn.
    destruct (strict_neq dm (VBool false)); cbn; destruct (truthy co); cbn;
      destruct (truthy bg); reflexivity.
  - unfold destroy. msimpl. cbn. destruct (parent w) as [c|]; [|reflexivity].
    case_bool_decide; reflexivity.
Qed.

Lemma run_fullscreen (css : string) (cs : list call) (v : value) (s : state) :
  run css cs (with_options (set_fullscreen v) s)
  = ((run css cs s).1, with_options (set_fullscreen v) (run css cs s).2).
Proof.
  revert s. induction cs as [|c cs IH]; intros s; [reflexivity|].
  cbn [run]. rewrite invoke_fullscreen. cbn [map_final result emitted final].
  rewrite IH. reflexivity.
Qed.

(** C5: two widgets made from configurations that differ in the fullscreen
    field alone, on the same page and given the same calls, complete every
    call the same way with the same events, and end with the same flag, the
    same view, the same listeners and the same window: their states differ
    in the stored fullscreen field and nowhere else. *)
Theorem fullscreen_never_consulted
    (css : string) (view : markup) (o : config) (v1 v2 : value) (w : window)
    (cs : list call) :
  let r1 := run css cs (fresh view (Some (with_fullscreen v1 o)) w) in
  let r2 := run css cs (fresh view (Some (with_fullscreen v2 o)) w) in
  result (constructor view (Some (with_fullscreen v1 o)) w)
    = result (constructor view (Some (with_fullscreen v2 o)) w)
  ∧ emitted (constructor view (Some (with_fullscreen v1 o)) w)
    = emitted (constructor view (Some (with_fullscreen v2 o)) w)
  ∧ r1.1 = r2.1
  ∧ flag r1.2 = flag r2.2
  ∧ titlebarElement (this r1.2) = titlebarElement (this r2.2)
  ∧ listeners (this r1.2) = listeners (this r2.2)
  ∧ win r1.2 = win r2.2
  ∧ r1.2 = with_options (set_fullscreen v1) r2.2.
Proof.
  cbn zeta. unfold fresh. rewrite !constructor_fullscreen.
  cbn [map_final result emitted final]. rewrite !run_fullscreen. cbn [fst snd].
  repeat split.
Qed.

(** ** The theme marker of the body *)

Definition with_darkMode (v : value) (o : config) : config :=
  Config (c_icon o) (c_title o) (c_color o) (c_backgroundColor o)
         v (c_draggable o) (c_fullscreen o).

Lemma constructor_options (view : markup) (options : option config) (w : window) :
  this_options (this (fresh view options w)) =
  let o := default empty_config options in
  Options (c_icon o) (c_title o) (c_color o) (c_backgroundColor o)
          (c_darkMode o) (c_draggable o) (c_fullscreen o) VUndefined.
Proof.
  destruct options as [o|]; unfold fresh, constructor, init, setIcon, setTitle;
    mrun; reflexivity.
Qed.

Lemma constructor_window (view : markup) (options : option config) (w : window) :
  win (fresh view options w) =
  Window (parent w) (body_classList w) (styles w) (childNodes w)
         (S (next_node w)).
Proof.
  destruct options as [o|]; unfold fresh, constructor, init, setIcon, setTitle;
    mrun; reflexivity.
Qed.

Lemma appendTo_body_classList (css : string) (context : option container)
    (s : state) :
  body_classList (win (final (appendTo css context s))) =
  if strict_neq (darkMode (this_options (this s))) (VBool false)
  then token_add "titlebar-light" (body_classList (win s))
  else body_classList (win s).
Proof.
  rewrite appendTo_window. cbn [set_childNodes body_classList].
  destruct (defaultCss_frame "titlebar" css
              (if strict_neq (darkMode (this_options (this s))) (VBool false)
               then set_body_classList (token_add "titlebar-light") (win s)
               else win s)) as (_ & _ & ->).
  by destruct (strict_neq _ _).
Qed.

(** The class list of the body once a new widget is mounted. *)
Definition mounted_body (css : string) (view : markup)
    (options : option config) (context : option container) (w : window)
    : list string :=
  body_classList (win (final (appendTo css context (fresh view options w)))).

(** C6: mounting a new widget adds the light-theme marker to the body unless
    darkMode is the boolean false, and then leaves the class list of the
    body as it was.  So with [{darkMode: false}] a body without the marker
    stays without it, and without the field (or without any configuration)
    and with [{darkMode: true}] the body carries the marker afterwards. *)
Theorem appendTo_theme_marker
    (css : string) (view : markup) (o : config) (d : value)
    (context : option container) (w : window) :
  mounted_body css view (Some (with_darkMode d o)) context w
    = (if bool_decide (d = VBool false) then body_classList w
       else token_add "titlebar-light" (body_classList w))
  ∧ mounted_body css view (Some (with_darkMode (VBool false) o)) context w
    = body_classList w
  ∧ "titlebar-light" ∈
      mounted_body css view (Some (with_darkMode VUndefined o)) context w
  ∧ "titlebar-light" ∈ mounted_body css view None context w
  ∧ "titlebar-light" ∈
      mounted_body css view (Some (with_darkMode (VBool true) o)) context w.
Proof.
  unfold mounted_body.
  rewrite !appendTo_body_classList, !constructor_options, !constructor_window.
  cbn. unfold strict_neq.
  repeat split; try apply token_add_elem.
  by destruct (bool_decide (d = VBool false)).
Qed.

(** ** Style injection *)

(** The stylesheets registered under a name. *)
Definition named (name : string) (l : list (string * string))
    : list (string * string) :=
  filter (λ p, p.1 = name) l.

Lemma named_absent (name : string) (l : list (string * string)) :
  name ∉ l.*1 → named name l = [].
Proof.
  unfold named. induction l as [|[k v] l IH]; intros Hno; [reflexivity|].
  cbn in Hno. apply not_elem_of_cons in Hno as [Hne Hno].
  rewrite filter_cons_False by (cbn; congruence). by apply IH.
Qed.

Lemma named_app_new (name css : string) (l : list (string * string)) :
  name ∉ l.*1 → named name (l ++ [(name, css)]) = [(name, css)].
Proof.
  intros Hno. unfold named. rewrite filter_app. fold (named name l).
  rewrite named_absent by done. cbn [app].
  rewrite filter_cons_True by reflexivity. reflexivity.
Qed.

Lemma defaultCss_named (name css : string) (w : window) :
  name ∉ (styles w).*1 →
  styles (defaultCss name css w) = styles w ++ [(name, css)]
  ∧ named name (styles (defaultCss name css w)) = [(name, css)].
Proof.
  intros Hno. unfold defaultCss. rewrite bool_decide_eq_false_2 by done. cbn.
  split; [reflexivity|]. by apply named_app_new.
Qed.

Lemma defaultCss_again (name css : string) (w : window) :
  name ∈ (styles w).*1 → defaultCss name css w = w.
Proof. intros Hin. unfold defaultCss. by rewrite bool_decide_eq_true_2. Qed.

Lemma appendTo_styles (css : string) (context : option container) (s : state) :
  styles (win (final (appendTo css context s)))
  = styles (defaultCss "titlebar" css (win s)).
Proof.
  rewrite appendTo_window. cbn [set_childNodes styles].
  destruct (strict_neq _ _); [|reflexivity].
  unfold defaultCss. cbn. case_bool_decide; reflexivity.
Qed.

(** Two mounts, of any two widgets, on a page that has no stylesheet of the
    name yet: the first registers it, the second finds it. *)
Lemma appendTo_twice_styles
    (css : string) (t1 t2 : TitleBar) (c1 c2 : option container) (w : window) :
  "titlebar" ∉ (styles w).*1 →
  let w1 := win (final (appendTo css c1 (State t1 w))) in
  let w2 := win (final (appendTo css c2 (State t2 w1))) in
  styles w1 = styles w ++ [("titlebar", css)] ∧ styles w2 = styles w1.
Proof.
  intros Hno. cbn zeta.
  set (w1 := win (final (appendTo css c1 (State t1 w)))).
  assert (Hw1 : styles w1 = styles w ++ [("titlebar", css)]).
  { unfold w1. rewrite appendTo_styles. cbn [win]. by apply defaultCss_named. }
  split; [exact Hw1|].
  rewrite appendTo_styles. cbn [win]. rewrite defaultCss_again; [done|].
  rewrite Hw1, fmap_app. apply elem_of_app. right. cbn.
  by apply list_elem_of_singleton.
Qed.

(** C8: on a page with no stylesheet named titlebar, two widgets are
    constructed and each is mounted with [appendTo]; the page then holds the
    stylesheet of that name once, with the text of css/titlebar.css, after
    the first mount and still after the second. *)
Theorem stylesheet_injected_once
    (css : string) (view : markup) (o1 o2 : option config)
    (c1 c2 : option container) (w : window) :
  "titlebar" ∉ (styles w).*1 →
  let s1 := fresh view o1 w in
  let s2 := fresh view o2 (win s1) in
  let a1 := final (appendTo css c1 (State (this s1) (win s2))) in
  let a2 := final (appendTo css c2 (State (this s2) (win a1))) in
  named "titlebar" (styles (win a1)) = [("titlebar", css)]
  ∧ named "titlebar" (styles (win a2)) = [("titlebar", css)]
  ∧ length (named "titlebar" (styles (win a2))) = 1.
Proof.
  intros Hno. cbn zeta.
  set (s1 := fresh view o1 w). set (s2 := fresh view o2 (win s1)).
  assert (Hw : styles (win s2) = styles w).
  { unfold s2, s1. by rewrite !constructor_window. }
  assert (Hno2 : "titlebar" ∉ (styles (win s2)).*1) by by rewrite Hw.
  destruct (appendTo_twice_styles css (this s1) (this s2) c1 c2 (win s2) Hno2)
    as [H1 H2].
  cbn zeta in H1, H2. rewrite H2, H1.
  rewrite named_app_new by done. done.
Qed.

Lemma stylesheet_injected_once_witness :
  let s1 := fresh plain_markup None blank_window in
  let s2 := fresh plain_markup (Some empty_config) (win s1) in
  let a1 := final (appendTo "css" None (State (this s1) (win s2))) in
  let a2 := final (appendTo "css" (Some (Host 1)) (State (this s2) (win a1))) in
  named "titlebar" (styles (win a1)) = [("titlebar", "css")]
  ∧ named "titlebar" (styles (win a2)) = [("titlebar", "css")]
  ∧ length (named "titlebar" (styles (win a2))) = 1.
Proof.
  apply (stylesheet_injected_once "css" plain_markup None (Some empty_config)
           None (Some (Host 1)) blank_window).
  vm_compute. intros H. inversion H.
Defined.

(** ** Title and icon *)

Definition with_title (v : value) (o : config) : config :=
  Config (c_icon o) v (c_color o) (c_backgroundColor o)
         (c_darkMode o) (c_draggable o) (c_fullscreen o).

Definition with_icon (v : value) (o : config) : config :=
  Config v (c_title o) (c_color o) (c_backgroundColor o)
         (c_darkMode o) (c_draggable o) (c_fullscreen o).

Lemma constructor_title (view : markup) (options : option config) (w : window) :
  title_innerText (titlebarElement (this (fresh view options w))) =
  let t := c_title (default empty_config options) in
  if truthy t then to_dom_string t else m_title_innerText view.
Proof.
  destruct options as [o|]; unfold fresh, constructor, init, setIcon, setTitle;
    mrun; reflexivity.
Qed.

Lemma constructor_icon (view : markup) (options : option config) (w : window) :
  icon_backgroundImage (titlebarElement (this (fresh view options w))) =
  let i := c_icon (default empty_config options) in
  if truthy i then "url(" +:+ to_string i +:+ ")"
  else m_icon_backgroundImage view.
Proof.
  destruct options as [o|]; unfold fresh, constructor, init, setIcon, setTitle;
    mrun; reflexivity.
Qed.

(** C9: a widget constructed with the title "My App", whatever the other
    fields, shows "My App" in its title region; [setTitle(x)] called on the
    widget in any later state makes the region show [x], so [setTitle("X")]
    makes it show "X". *)
Theorem title_shown
    (view : markup) (o : config) (w : window) (s : state) (x : string) :
  title_innerText
    (titlebarElement
       (this (fresh view (Some (with_title (VString "My App") o)) w)))
    = "My App"
  ∧ title_innerText (titlebarElement (this (final (setTitle (VString x) s)))) = x
  ∧ title_innerText
      (titlebarElement
         (this (final (setTitle (VString "X")
                         (fresh view (Some (with_title (VString "My App") o)) w)))))
    = "X".
Proof.
  rewrite constructor_title, !setTitle_eq. cbn. done.
Qed.

(** C10: the constructor skips a title or an icon that is the empty string:
    the title region and the image of the icon are then those of the
    markup.  [setTitle("")] and [setIcon("")] called on the widget do write:
    the title region becomes empty and the image of the icon becomes
    [url()]. *)
Theorem empty_title_icon
    (view : markup) (o : config) (w : window) (s : state) :
  title_innerText
    (titlebarElement (this (fresh view (Some (with_title (VString "") o)) w)))
    = m_title_innerText view
  ∧ icon_backgroundImage
      (titlebarElement (this (fresh view (Some (with_icon (VString "") o)) w)))
    = m_icon_backgroundImage view
  ∧ title_innerText (titlebarElement (this (final (setTitle (VString "") s))))
    = ""
  ∧ icon_backgroundImage
      (titlebarElement (this (final (setIcon (VString "") s))))
    = "url()".
Proof.
  rewrite constructor_title, constructor_icon, setTitle_eq, setIcon_eq.
  cbn. done.
Qed.

(** ** The listeners *)

Lemma constructor_listeners (view : markup) (options : option config) (w : window) :
  listeners (this (fresh view options w)) =
  [(Root, "dblclick", MResize); (MinimizeButton, "click", MMinimize);
   (ResizeButton, "click", MResize); (CloseButton, "click", MClose)].
Proof.
  destruct options as [o|]; unfold fresh, constructor, init, setIcon, setTitle;
    mrun; reflexivity.
Qed.

Lemma listeners_on_fresh
    (view : markup) (options : option config) (w : window)
    (t : target) (type : string) :
  listeners_on t type (fresh view options w) =
  (filter (λ l, l.1 = (t, type))
          [(Root, "dblclick", MResize); (MinimizeButton, "click", MMinimize);
           (ResizeButton, "click", MResize); (CloseButton, "click", MClose)]).*2.
Proof. unfold listeners_on. by rewrite constructor_listeners. Qed.

Lemma bind_ret_tt (m : M unit) (s : state) : (m ;; mret tt) s = m s.
Proof.
  unfold mbind, mret, M_bind, M_ret, bind, ret.
  destruct (m s) as [[[]|e] ev s']; rewrite ?app_nil_r; reflexivity.
Qed.

(** On a new widget a double click in the bar and a click on the resize
    control run [resize], a click on the minimize control runs [minimize]
    and a click on the close control runs [close]. *)
Lemma dispatch_fresh (view : markup) (options : option config) (w : window) :
  let s := fresh view options w in
  dispatch Root "dblclick" s = resize s
  ∧ dispatch ResizeButton "click" s = resize s
  ∧ dispatch MinimizeButton "click" s = minimize s
  ∧ dispatch CloseButton "click" s = close s.
Proof.
  cbn zeta. unfold dispatch. rewrite !listeners_on_fresh.
  repeat split; apply bind_ret_tt.
Qed.

(** * Further properties of the class *)

(** ** Events and completions of a call *)

Lemma appendTo_quiet (css : string) (context : option container) (s : state) :
  result (appendTo css context s) = Normal tt
  ∧ emitted (appendTo css context s) = [].
Proof.
  destruct s as [[o e l] w]. unfold appendTo. mrun; split; reflexivity.
Qed.

Lemma destroy_emitted (s : state) : emitted (destroy s) = [].
Proof.
  destruct s as [t w]. unfold destroy. msimpl. cbn.
  destruct (parent w) as [c|]; [|reflexivity].
  case_bool_decide; reflexivity.
Qed.

(** X1: a call emits the one event of its method and no other: minimize,
    maximize, restore and close emit the event of their name, [resize()]
    emits restore when the flag it reads is truthy and maximize otherwise,
    and [appendTo], [destroy], [setIcon] and [setTitle] emit nothing. *)
Theorem events_of_a_call (css : string) (c : call) (s : state) :
  emitted (invoke css c s) =
  match c with
  | Minimize => ["minimize"]
  | Maximize => ["maximize"]
  | Restore => ["restore"]
  | Resize => [if truthy (flag s) then "restore" else "maximize"]
  | Close => ["close"]
  | AppendTo _ | Destroy | SetIcon _ | SetTitle _ => []
  end.
Proof.
  destruct c; cbn [invoke]; try reflexivity.
  - rewrite resize_eq. by destruct (truthy (flag s)).
  - apply appendTo_quiet.
  - apply destroy_emitted.
Qed.


(** ** What a call leaves alone *)

Lemma invoke_options (css : string) (c : call) (s : state) :
  this_options (this (final (invoke css c s)))
  = set_maximized (flag (final (invoke css c s))) (this_options (this s)).
Proof.
  destruct s as [[[i t co bg dm dr fs mx] e l] w].
  destruct c; cbn [invoke]; try reflexivity.
  - rewrite resize_eq. unfold flag. cbn. by destruct (truthy mx).
  - unfold flag. by rewrite appendTo_options.
  - unfold flag. by rewrite destroy_this.
Qed.

(** X3: the options copied by the constructor are never written again:
    after any calls [this.options] is what it was but for [maximized].  In
    particular [setTitle] and [setIcon] change the view and leave
    [options.title] and [options.icon] as configured. *)
Theorem options_fixed_after_construction
    (css : string) (cs : list call) (s : state) :
  this_options (this (run css cs s).2)
  = set_maximized (flag (run css cs s).2) (this_options (this s)).
Proof.
  revert s. induction cs as [|c cs IH]; intros s.
  - by destruct s as [[[i t co bg dm dr fs mx] e l] w].
  - cbn [run snd]. rewrite IH, invoke_options. reflexivity.
Qed.

Lemma token_remove_add (t : string) (l : list string) :
  token_remove t (token_add t l) = token_remove t l.
Proof.
  unfold token_add, token_remove. case_bool_decide; [reflexivity|].
  rewrite filter_app, filter_cons_False by (intros H'; by apply H').
  by rewrite app_nil_r.
Qed.

Lemma token_remove_remove (t : string) (l : list string) :
  token_remove t (token_remove t l) = token_remove t l.
Proof.
  unfold token_remove. induction l as [|x l IH]; [reflexivity|].
  destruct (decide (x ≠ t)) as [Hx|Hx].
  - rewrite (filter_cons_True _ x l) by done.
    rewrite filter_cons_True by done. by rewrite IH.
  - by rewrite filter_cons_False by done.
Qed.

Lemma invoke_other_classes (css : string) (c : call) (s : state) :
  token_remove "maximized" (classList (titlebarElement (this (final (invoke css c s)))))
  = token_remove "maximized" (classList (titlebarElement (this s))).
Proof.
  destruct c; cbn [invoke]; try reflexivity.
  - rewrite maximize_eq. cbn. apply token_remove_add.
  - rewrite restore_eq. cbn. apply token_remove_remove.
  - rewrite resize_eq. destruct (truthy (flag s)); cbn.
    + apply token_remove_remove.
    + apply token_remove_add.
  - by rewrite appendTo_classList.
  - by rewrite destroy_this.
Qed.

(** X4: after construction the only class of the root a call adds or
    removes is the marker: with the marker taken out, the class list after
    any calls is the class list before, in the same order.  So a draggable
    bar stays draggable. *)
Theorem only_marker_class_changes (css : string) (cs : list call) (s : state) :
  token_remove "maximized" (classList (titlebarElement (this (run css cs s).2)))
  = token_remove "maximized" (classList (titlebarElement (this s))).
Proof.
  revert s. induction cs as [|c cs IH]; intros s; [reflexivity|].
  cbn [run snd]. rewrite IH. apply invoke_other_classes.
Qed.

(** ** The listeners in use *)

Lemma invoke_listeners (css : string) (c : call) (s : state) :
  listeners (this (final (invoke css c s))) = listeners (this s).
Proof.
  destruct c; cbn [invoke]; try reflexivity.
  - rewrite resize_eq. by destruct (truthy (flag s)).
  - destruct s as [[o e l] w]. unfold appendTo. mrun; reflexivity.
  - by rewrite destroy_this.
Qed.

Lemma run_listeners (css : string) (cs : list call) (s : state) :
  listeners (this (run css cs s).2) = listeners (this s).
Proof.
  revert s. induction cs as [|c cs IH]; intros s; [reflexivity|].
  cbn [run snd]. rewrite IH. apply invoke_listeners.
Qed.

Lemma dispatch_listeners (t : target) (type : string) (s s' : state) :
  listeners (this s) = listeners (this s') →
  dispatch t type s = foldr (λ m k, handler m ;; k) (mret tt)
    (listeners_on t type s'
     ++ (if decide (t = Root) then [] else listeners_on Root type s')) s.
Proof. intros H. unfold dispatch, listeners_on. by rewrite H. Qed.

(** X5: whatever calls were made since construction, a click on the
    minimize control runs [minimize], a click on the resize control runs
    [resize], a click on the close control runs [close], and a double click
    runs [resize] wherever it lands, on the bar or on any of the three
    controls: the listener of the root is [resize] itself. *)
Theorem listeners_in_every_state
    (css : string) (view : markup) (options : option config) (w : window)
    (cs : list call) (t : target) :
  let s := (run css cs (fresh view options w)).2 in
  dispatch MinimizeButton "click" s = minimize s
  ∧ dispatch ResizeButton "click" s = resize s
  ∧ dispatch CloseButton "click" s = close s
  ∧ dispatch t "dblclick" s = resize s.
Proof.
  cbn zeta.
  set (s := (run css cs (fresh view options w)).2).
  assert (H : listeners (this s) = listeners (this (fresh view options w)))
    by apply run_listeners.
  rewrite !(dispatch_listeners _ _ s _ H), !listeners_on_fresh.
  repeat split; try apply bind_ret_tt.
  destruct t; apply bind_ret_tt.
Qed.

(** X6: [onDoubleclick] toggles only for a target outside the three
    controls: on a control it completes without an event and leaves the
    state as it is, elsewhere it is [resize].  No listener of a new widget
    runs it: the double click on a control, which it would skip, runs
    [resize]. *)
Theorem onDoubleclick_guard
    (view : markup) (options : option config) (w : window) (s : state) :
  (∀ t, onDoubleclick t s
        = if decide (t = Root) then resize s else Outcome (Normal tt) [] s)
  ∧ (∀ t, dispatch t "dblclick" (fresh view options w)
          = resize (fresh view options w))
  ∧ emitted (resize s) ≠ [].
Proof.
  split; [|split].
  - intros t. destruct t; reflexivity.
  - intros t. unfold dispatch. rewrite !listeners_on_fresh.
    destruct t; apply bind_ret_tt.
  - rewrite resize_eq. by destruct (truthy (flag s)).
Qed.

(** ** The theme marker of the body, over time *)

Lemma invoke_body_classList (css : string) (c : call) (s : state) :
  let b := body_classList (win s) in
  let b' := body_classList (win (final (invoke css c s))) in
  b' = b ∨ (("titlebar-light" ∉ b) ∧ b' = b ++ ["titlebar-light"]).
Proof.
  cbn zeta. destruct c; cbn [invoke]; auto.
  - rewrite resize_eq. destruct (truthy (flag s)); auto.
  - rewrite appendTo_body_classList. destruct (strict_neq _ _); [|auto].
    unfold token_add. case_bool_decide; auto.
  - destruct s as [t w]. unfold destroy. msimpl. cbn.
    destruct (parent w) as [c|]; [|auto]. case_bool_decide; auto.
Qed.

(** X7: no call takes the light-theme marker off the body.  After any
    calls on a widget the class list of the body is the one before, or the
    one before with the marker appended when it had none.  So mounting a
    widget with [{darkMode: false}] on a page that carries the marker
    leaves the marker there. *)
Theorem theme_marker_only_added (css : string) (cs : list call) (s : state) :
  let b := body_classList (win s) in
  let b' := body_classList (win (run css cs s).2) in
  b' = b ∨ (("titlebar-light" ∉ b) ∧ b' = b ++ ["titlebar-light"]).
Proof.
  cbn zeta. revert s. induction cs as [|c cs IH]; intros s; [by left|].
  cbn [run snd].
  destruct (invoke_body_classList css c s) as [H1|[Hno H1]];
    destruct (IH (final (invoke css c s))) as [H2|[Hno2 H2]];
    cbn zeta in *.
  - left. by rewrite H2.
  - right. rewrite H2. by rewrite H1 in *.
  - right. by rewrite H2.
  - exfalso. apply Hno2. rewrite H1. apply elem_of_app. right.
    by apply list_elem_of_singleton.
Qed.

(** ** Construction and mounting *)


Lemma constructor_node (view : markup) (options : option config) (w : window) :
  node (titlebarElement (this (fresh view options w))) = next_node w.
Proof.
  destruct options as [o|]; unfold fresh, constructor, init, setIcon, setTitle;
    mrun; reflexivity.
Qed.


(** X9: after [appendTo(context)] the view is a child of the context and
    of no other container, wherever it was before: a widget mounted a
    second time elsewhere moves, and one mounted again in the same place
    is not duplicated; it is the last child of the context. *)
Theorem appendTo_places_view
    (css : string) (context : option container) (s : state) (c : container) :
  let n := node (titlebarElement (this s)) in
  let s' := final (appendTo css context s) in
  (n ∈ children c (win s') ↔ c = default Body context)
  ∧ children (default Body context) (win s')
    = filter (λ x, x ≠ n) (children (default Body context) (win s)) ++ [n].
Proof.
  cbn zeta. rewrite !appendTo_children. cbn zeta.
  rewrite (decide_True (P := default Body context = default Body context))
    by done.
  split; [|reflexivity].
  destruct (decide (default Body context = c)) as [<-|Hne].
  - split; [done|]. intros _. apply elem_of_app. right.
    by apply list_elem_of_singleton.
  - split; [|congruence]. intros Hin. by apply filter_ne_elem in Hin.
Qed.

(** X10: two widgets constructed one after the other have different view
    nodes, and after both are mounted each is a child of the container it
    was mounted in: the second mount does not displace the first, also when
    the container is the same. *)
Theorem two_widgets_coexist
    (css : string) (view : markup) (o1 o2 : option config)
    (c1 c2 : option container) (w : window) :
  let s1 := fresh view o1 w in
  let s2 := fresh view o2 (win s1) in
  let n1 := node (titlebarElement (this s1)) in
  let n2 := node (titlebarElement (this s2)) in
  let a1 := final (appendTo css c1 (State (this s1) (win s2))) in
  let a2 := final (appendTo css c2 (State (this s2) (win a1))) in
  n1 ≠ n2
  ∧ n1 ∈ children (default Body c1) (win a2)
  ∧ n2 ∈ children (default Body c2) (win a2).
Proof.
  cbn zeta.
  set (s1 := fresh view o1 w). set (s2 := fresh view o2 (win s1)).
  assert (Hn1 : node (titlebarElement (this s1)) = next_node w)
    by apply constructor_node.
  assert (Hn2 : node (titlebarElement (this s2)) = S (next_node w)).
  { unfold s2. rewrite constructor_node. unfold s1.
    by rewrite constructor_window. }
  assert (Hne : node (titlebarElement (this s1)) ≠ node (titlebarElement (this s2))).
  { rewrite Hn1, Hn2. lia. }
  split; [exact Hne|].
  set (a1 := final (appendTo css c1 (State (this s1) (win s2)))).
  assert (Hin1 : node (titlebarElement (this s1)) ∈ children (default Body c1) (win a1)).
  { unfold a1. rewrite appendTo_children. cbn zeta. cbn [this].
    rewrite decide_True by done. apply elem_of_app. right.
    by apply list_elem_of_singleton. }
  rewrite !appendTo_children. cbn zeta. cbn [this win].
  rewrite (decide_True (P := default Body c2 = default Body c2)) by done.
  split.
  - destruct (decide (default Body c2 = default Body c1)) as [Heq|Hd].
    + apply elem_of_app. left. apply list_elem_of_filter. split; [done|].
      by rewrite Heq.
    + apply list_elem_of_filter. by split.
  - apply elem_of_app. right. by apply list_elem_of_singleton.
Qed.

(** X11: [appendTo] paints with the configured colours and with nothing
    else.  A truthy [color] becomes the colour of the title and the fill of
    the rectangle, the path and the polygon; a truthy [backgroundColor]
    becomes the background of the bar; a colour that is absent or the empty
    string leaves its slots as they were.  The title text and the icon are
    not touched. *)
Theorem appendTo_paints
    (css : string) (context : option container) (s : state) :
  let e := titlebarElement (this s) in
  let e' := titlebarElement (this (final (appendTo css context s))) in
  let co := color (this_options (this s)) in
  let bg := backgroundColor_opt (this_options (this s)) in
  (title_color e', rect_fill e', path_fill e', polygon_fill e')
    = (if truthy co
       then (to_dom_string co, to_dom_string co, to_dom_string co,
             to_dom_string co)
       else (title_color e, rect_fill e, path_fill e, polygon_fill e))
  ∧ backgroundColor e'
    = (if truthy bg then to_dom_string bg else backgroundColor e)
  ∧ title_innerText e' = title_innerText e
  ∧ icon_backgroundImage e' = icon_backgroundImage e.
Proof.
  destruct s as [[o e l] w]. unfold appendTo. mrun; repeat split.
Qed.

(** ** Unmounting where the global [parent] is the container *)

Lemma destroy_eq (s : state) (c : container) :
  parent (win s) = Some c →
  destroy s =
  if bool_decide (node (titlebarElement (this s)) ∈ children c (win s))
  then Outcome (Normal tt) []
         (with_window
            (set_childNodes (removeChild c (node (titlebarElement (this s)))))
            s)
  else Outcome (Throw NotFoundError) [] s.
Proof.
  intros Hp. destruct s as [t w]. unfold destroy. msimpl. cbn in *.
  rewrite Hp. case_bool_decide; reflexivity.
Qed.

(** X12: on a page whose global [parent] is the container the widget is
    mounted in, [destroy()] completes and the view is no child of the
    container any more; a second [destroy()] throws a NotFoundError and
    leaves the state as it is. *)
Theorem destroy_twice
    (css : string) (context : option container) (s : state) :
  parent (win s) = Some (default Body context) →
  let c := default Body context in
  let n := node (titlebarElement (this s)) in
  let s1 := final (appendTo css context s) in
  let s2 := final (destroy s1) in
  destroy s1 = Outcome (Normal tt) [] s2
  ∧ (n ∉ children c (win s2))
  ∧ destroy s2 = Outcome (Throw NotFoundError) [] s2.
Proof.
  intros Hp. cbn zeta.
  set (c := default Body context) in *.
  set (s1 := final (appendTo css context s)).
  assert (Hp1 : parent (win s1) = Some c).
  { unfold s1. by rewrite appendTo_parent. }
  assert (Hn1 : node (titlebarElement (this s1)) = node (titlebarElement (this s)))
    by apply appendTo_node.
  assert (Hin : node (titlebarElement (this s1)) ∈ children c (win s1)).
  { rewrite Hn1. unfold s1. rewrite appendTo_children. cbn zeta.
    fold c. rewrite decide_True by done. apply elem_of_app. right.
    by apply list_elem_of_singleton. }
  rewrite (destroy_eq s1 c Hp1), bool_decide_eq_true_2 by exact Hin.
  cbn [final]. rewrite <- Hn1.
  set (n := node (titlebarElement (this s1))) in *.
  set (s2 := with_window (set_childNodes (removeChild c n)) s1).
  assert (Hout : n ∉ children c (win s2)).
  { unfold s2, children, removeChild. cbn. rewrite lookup_insert_eq. cbn.
    apply filter_ne_elem. }
  split; [reflexivity|]. split; [exact Hout|].
  rewrite (destroy_eq s2 c) by exact Hp1.
  by rewrite bool_decide_eq_false_2.
Qed.

Lemma destroy_twice_witness :
  let s := fresh plain_markup None (Window (Some Body) [] [] ∅ 0) in
  let s1 := final (appendTo "" None s) in
  let s2 := final (destroy s1) in
  destroy s1 = Outcome (Normal tt) [] s2
  ∧ (node (titlebarElement (this s)) ∉ children Body (win s2))
  ∧ destroy s2 = Outcome (Throw NotFoundError) [] s2.
Proof.
  apply (destroy_twice "" None
           (fresh plain_markup None (Window (Some Body) [] [] ∅ 0))).
  reflexivity.
Defined.

(** ** Mounting again *)

Lemma token_add_in (t : string) (l : list string) :
  t ∈ l → token_add t l = l.
Proof. intros Hin. unfold token_add. by rewrite bool_decide_eq_true_2. Qed.

Lemma token_add_add (t : string) (l : list string) :
  token_add t (token_add t l) = token_add t l.
Proof. apply token_add_in, token_add_elem. Qed.

Lemma filter_ne_idem (n : nat) (l : list nat) :
  filter (λ x, x ≠ n) (filter (λ x, x ≠ n) l) = filter (λ x, x ≠ n) l.
Proof.
  induction l as [|x l IH]; [reflexivity|].
  destruct (decide (x ≠ n)) as [Hx|Hx].
  - rewrite (filter_cons_True _ x l) by done.
    rewrite filter_cons_True by done. by rewrite IH.
  - by rewrite filter_cons_False by done.
Qed.

Lemma appendChild_lookup_opt (c k : container) (n : nat)
    (m : gmap container (list nat)) :
  appendChild c n m !! k =
  if decide (c = k)
  then Some (filter (λ x, x ≠ n) (default [] (m !! c)) ++ [n])
  else filter (λ x, x ≠ n) <$> m !! k.
Proof.
  unfold appendChild. cbn zeta. rewrite lookup_insert.
  destruct (decide (c = k)) as [->|Hne].
  - rewrite lookup_fmap. by destruct (m !! k).
  - by rewrite lookup_fmap.
Qed.

Lemma appendChild_idem (c : container) (n : nat)
    (m : gmap container (list nat)) :
  appendChild c n (appendChild c n m) = appendChild c n m.
Proof.
  apply map_eq. intros k. rewrite !appendChild_lookup_opt.
  rewrite (decide_True (P := c = c)) by done.
  destruct (decide (c = k)) as [->|Hne].
  - cbn. rewrite filter_app, filter_ne_idem.
    rewrite filter_cons_False by (intros H; by apply H).
    by rewrite app_nil_r.
  - destruct (m !! k) as [l|]; cbn; [|reflexivity].
    by rewrite filter_ne_idem.
Qed.

Lemma defaultCss_idem (name css : string) (w : window) :
  defaultCss name css (defaultCss name css w) = defaultCss name css w.
Proof.
  unfold defaultCss at 2 3. case_bool_decide as Hin.
  - by apply defaultCss_again.
  - apply defaultCss_again. cbn. rewrite fmap_app. apply elem_of_app. right.
    cbn. by apply list_elem_of_singleton.
Qed.

(** The window after a mount of the node [n] in [c] by a widget whose
    darkMode option is [d]. *)
Definition mount (css : string) (c : container) (n : nat) (d : value)
    (w : window) : window :=
  set_childNodes (appendChild c n)
    (defaultCss "titlebar" css
       (if strict_neq d (VBool false)
        then set_body_classList (token_add "titlebar-light") w
        else w)).

Lemma window_ext (w w' : window) :
  parent w = parent w' → body_classList w = body_classList w' →
  styles w = styles w' → childNodes w = childNodes w' →
  next_node w = next_node w' → w = w'.
Proof. destruct w, w'. cbn. by intros -> -> -> -> ->. Qed.

Lemma defaultCss_styles (name css : string) (w : window) :
  styles (defaultCss name css w) =
  if bool_decide (name ∈ (styles w).*1) then styles w
  else styles w ++ [(name, css)].
Proof. unfold defaultCss. by case_bool_decide. Qed.

Lemma mount_fields (css : string) (c : container) (n : nat) (d : value)
    (w : window) :
  parent (mount css c n d w) = parent w
  ∧ body_classList (mount css c n d w)
    = (if strict_neq d (VBool false)
       then token_add "titlebar-light" (body_classList w)
       else body_classList w)
  ∧ styles (mount css c n d w) = styles (defaultCss "titlebar" css w)
  ∧ childNodes (mount css c n d w) = appendChild c n (childNodes w)
  ∧ next_node (mount css c n d w) = next_node w.
Proof.
  destruct w as [p b st ch nx]. unfold mount, defaultCss.
  destruct (strict_neq d (VBool false)); cbn; case_bool_decide; cbn; done.
Qed.

Lemma mount_idem (css : string) (c : container) (n : nat) (d : value)
    (w : window) :
  mount css c n d (mount css c n d w) = mount css c n d w.
Proof.
  destruct (mount_fields css c n d (mount css c n d w))
    as (Hp & Hb & Hs & Hc & Hn).
  destruct (mount_fields css c n d w) as (Hp' & Hb' & Hs' & Hc' & Hn').
  apply window_ext.
  - by rewrite Hp.
  - rewrite Hb, Hb'. destruct (strict_neq d (VBool false)); [|done].
    apply token_add_add.
  - rewrite Hs, Hs'.
    rewrite (defaultCss_styles "titlebar" css (mount css c n d w)), Hs'.
    rewrite <- (defaultCss_styles "titlebar" css (defaultCss "titlebar" css w)).
    by rewrite defaultCss_idem.
  - rewrite Hc, Hc'. apply appendChild_idem.
  - by rewrite Hn.
Qed.

Lemma appendTo_state (css : string) (context : option container) (s : state) :
  final (appendTo css context s) =
  State (this (final (appendTo css context s)))
        (mount css (default Body context) (node (titlebarElement (this s)))
               (darkMode (this_options (this s))) (win s)).
Proof.
  unfold mount. rewrite <- appendTo_window.
  by destruct (final (appendTo css context s)).
Qed.

Lemma appendTo_this_idem
    (css : string) (context : option container) (t : TitleBar) (w w' : window) :
  this (final (appendTo css context
                 (State (this (final (appendTo css context (State t w)))) w')))
  = this (final (appendTo css context (State t w))).
Proof.
  destruct t as [o e l]. destruct e. unfold appendTo. mrun; reflexivity.
Qed.

Lemma appendTo_this_again
    (css : string) (context : option container) (s : state) :
  this (final (appendTo css context (final (appendTo css context s))))
  = this (final (appendTo css context s)).
Proof.
  destruct s as [t w].
  pose proof (appendTo_this_idem css context t w
                (win (final (appendTo css context (State t w))))) as H.
  set (X := final (appendTo css context (State t w))) in *.
  assert (HX : State (this X) (win X) = X) by (by destruct X).
  by rewrite HX in H.
Qed.

(** X13: mounting a widget a second time in the same container changes
    nothing: the second [appendTo(c)] completes without an event and the
    state after it is the state after the first, view, options, body
    classes, stylesheets and children alike. *)
Theorem appendTo_idempotent
    (css : string) (context : option container) (s : state) :
  let s1 := final (appendTo css context s) in
  appendTo css context s1 = Outcome (Normal tt) [] s1.
Proof.
  cbn zeta.
  pose proof (appendTo_this_again css context s) as Ht.
  pose proof (appendTo_node css context s) as Hn.
  pose proof (appendTo_options css context s) as Ho.
  pose proof (appendTo_window css context s) as Hw.
  fold (mount css (default Body context) (node (titlebarElement (this s)))
          (darkMode (this_options (this s))) (win s)) in Hw.
  set (X := final (appendTo css context s)) in *.
  destruct (appendTo_quiet css context X) as [Hr He].
  assert (Hf : final (appendTo css context X) = X).
  { rewrite (appendTo_state css context X), Ht, Hn, Ho, Hw, mount_idem, <- Hw.
    by destruct X. }
  destruct (appendTo css context X) as [r ev f]. cbn in *. by subst.
Qed.

(** ** The marker under repeated toggling *)

Lemma token_remove_notin (t : string) (l : list string) :
  t ∉ l → token_remove t l = l.
Proof.
  unfold token_remove. induction l as [|x l IH]; intros Hno; [reflexivity|].
  apply not_elem_of_cons in Hno as [Hne Hno].
  rewrite filter_cons_True by done. by rewrite IH.
Qed.

Lemma token_add_notin (t : string) (l : list string) :
  t ∉ l → token_add t l = l ++ [t].
Proof. intros Hno. unfold token_add. by rewrite bool_decide_eq_false_2. Qed.

Lemma run_resize_classList (css : string) (cl : list string) (n : nat) :
  "maximized" ∉ cl →
  ∀ s : state,
    (truthy (flag s) = false → classList (titlebarElement (this s)) = cl →
     classList (titlebarElement (this (run css (replicate n Resize) s).2))
     = if Nat.odd n then cl ++ ["maximized"] else cl)
    ∧ (truthy (flag s) = true →
       classList (titlebarElement (this s)) = cl ++ ["maximized"] →
       classList (titlebarElement (this (run css (replicate n Resize) s).2))
       = if Nat.odd n then cl else cl ++ ["maximized"]).
Proof.
  intros Hno. induction n as [|n IH]; intros s.
  - split; intros _ Hcl; exact Hcl.
  - cbn [replicate run snd invoke]. rewrite Nat.odd_succ, <- Nat.negb_odd.
    destruct (IH (final (resize s))) as [IH0 IH1]. clear IH.
    rewrite resize_eq in IH0, IH1 |- *.
    split; intros Hf Hcl; rewrite Hf in *; cbn in IH0, IH1 |- *.
    + rewrite IH1; [by destruct (Nat.odd n)|reflexivity|].
      rewrite Hcl. by apply token_add_notin.
    + rewrite IH0; [by destruct (Nat.odd n)|reflexivity|].
      rewrite Hcl, <- (token_add_notin "maximized" cl) by done.
      rewrite token_remove_add. by apply token_remove_notin.
Qed.

(** X14: on a widget whose flag is falsy and whose root does not carry the
    marker, [n] calls of [resize()] leave the class list of the root as it
    was when [n] is even, and as it was with the marker appended when [n] is
    odd: toggling twice restores the classes of the root, in their order. *)
Theorem resize_marker_round_trip (css : string) (n : nat) (s : state) :
  truthy (flag s) = false →
  "maximized" ∉ classList (titlebarElement (this s)) →
  classList (titlebarElement (this (run css (replicate n Resize) s).2))
  = if Nat.odd n
    then classList (titlebarElement (this s)) ++ ["maximized"]
    else classList (titlebarElement (this s)).
Proof.
  intros Hf Hno.
  by apply (run_resize_classList css _ n Hno s).
Qed.

Lemma resize_marker_round_trip_witness :
  classList
    (titlebarElement
       (this (run "" (replicate 3 Resize)
                  (fresh plain_markup None blank_window)).2))
  = ["titlebar"; "maximized"].
Proof.
  apply (resize_marker_round_trip "" 3 (fresh plain_markup None blank_window)).
  - reflexivity.
  - change ("maximized" ∉ ["titlebar"]). rewrite list_elem_of_singleton.
    discriminate.
Defined.
